(** * Product store service: the request handlers of [service/routes.py]

    The handlers are embedded as functions in a small state-and-exception
    monad over the product table.  The model layer they import
    ([service.models]: [Product], [Category], [DataValidationError]) and the
    application's error handlers are not part of the sources at hand; they
    are modelled from the specification and marked as such. *)

From Stdlib Require Import ZArith NArith String Ascii List Lia.
From Stdlib Require Import DecimalFacts DecimalN DecimalString.
From stdpp Require Import base option list gmap strings.

Local Open Scope Z_scope.
Local Open Scope string_scope.

(** ** Python values *)

(** The scalar values that occur in query strings and JSON bodies of this
    service.  JSON floats are left out. *)
Inductive value : Type :=
| VNone
| VBool (b : bool)
| VInt (n : Z)
| VStr (s : string).

#[global] Instance value_eq_dec : EqDecision value.
Proof. solve_decision. Defined.

(** [str.upper].  Python uppercases by Unicode code point, which a string
    of bytes does not determine here; the development is parametric in
    it. *)
Class StrUpper : Type := upper : string -> string.

(** Uppercasing of the letters [a] to [z], which is what [str.upper] does
    on ASCII text. *)
Definition upper_ascii (c : ascii) : ascii :=
  let n := nat_of_ascii c in
  if ((97 <=? n) && (n <=? 122))%nat then ascii_of_nat (n - 32) else c.

Fixpoint ascii_upper (s : string) : string :=
  match s with
  | EmptyString => EmptyString
  | String c s' => String (upper_ascii c) (ascii_upper s')
  end.

(** ** Decimals *)

(** A finite [decimal.Decimal] with a non-positive exponent: sign,
    coefficient and the number of fractional digits. *)
Record Decimal : Type := mkDecimal {
  dec_neg : bool;
  dec_coef : N;
  dec_scale : nat
}.

#[global] Instance Decimal_eq_dec : EqDecision Decimal.
Proof. solve_decision. Defined.

Definition dec_signed (d : Decimal) : Z :=
  if dec_neg d then - Z.of_N (dec_coef d) else Z.of_N (dec_coef d).

(** Numeric equality of decimals ([Decimal.__eq__]): equal after scaling
    both to a common exponent. *)
Definition dec_num_eq (a b : Decimal) : Prop :=
  dec_signed a * 10 ^ Z.of_nat (dec_scale b) =
  dec_signed b * 10 ^ Z.of_nat (dec_scale a).

(** The coefficient's digits, zero-padded on the left so that at least one
    digit stands before the decimal point. *)
Definition dec_digits (d : Decimal) : Decimal.uint :=
  let u := N.to_uint (dec_coef d) in
  Nat.iter (S (dec_scale d) - Decimal.nb_digits u) Decimal.D0 u.

(** The digits of [str(d)] after the sign: plain positional notation. *)
Definition dec_unsigned_string (d : Decimal) : string :=
  let u := dec_digits d in
  let k := (Decimal.nb_digits u - dec_scale d)%nat in
  match dec_scale d with
  | O => NilEmpty.string_of_uint u
  | S _ =>
      NilEmpty.string_of_uint (Decimal.del_tail (dec_scale d) u) ++
      "." ++ NilEmpty.string_of_uint (Decimal.del_head k u)
  end.

(** [str(d)]. *)
Definition dec_to_string (d : Decimal) : string :=
  (if dec_neg d then "-" else "") ++ dec_unsigned_string d.

(** Split at the first ["."]. *)
Fixpoint split_dot (s : string) : string * option string :=
  match s with
  | EmptyString => (EmptyString, None)
  | String c s' =>
      if Ascii.eqb c "." then (EmptyString, Some s')
      else let '(a, b) := split_dot s' in (String c a, b)
  end.

Definition dec_of_unsigned (neg : bool) (s : string) : option Decimal :=
  let '(a, b) := split_dot s in
  match NilEmpty.uint_of_string a, b with
  | Some Decimal.Nil, _ => None
  | Some ua, None => Some (mkDecimal neg (N.of_uint ua) 0)
  | Some ua, Some fs =>
      match NilEmpty.uint_of_string fs with
      | Some Decimal.Nil | None => None
      | Some ub =>
          Some (mkDecimal neg (N.of_uint (Decimal.app ua ub)) (Decimal.nb_digits ub))
      end
  | None, _ => None
  end.

(** [Decimal(s)] for a string in positional notation; [None] stands for
    [decimal.InvalidOperation]. *)
Definition dec_of_string (s : string) : option Decimal :=
  match s with
  | String "-" s' => dec_of_unsigned true s'
  | _ => dec_of_unsigned false s
  end.

(** ** Exceptions *)

(** The exceptions that reach the framework from the handlers:
    [abort(code)] raises an HTTP exception, [getattr] an attribute error,
    the model a validation error; a storage error is whatever the storage
    engine reports (the table model below never raises it). *)
Inductive exn : Type :=
| HTTPException (code : Z)
| DataValidationError (msg : string)
| AttributeError (attr : string)
| StorageError (msg : string).

(** ** HTTP status codes ([service.common.status]) *)

Definition HTTP_200_OK : Z := 200.
Definition HTTP_201_CREATED : Z := 201.
Definition HTTP_400_BAD_REQUEST : Z := 400.
Definition HTTP_404_NOT_FOUND : Z := 404.
Definition HTTP_415_UNSUPPORTED_MEDIA_TYPE : Z := 415.
Definition HTTP_500_INTERNAL_SERVER_ERROR : Z := 500.

(** ** Requests and responses *)

(** A request as the handlers see it.  The body is taken as already parsed:
    [get_json] is the JSON object that [request.get_json()] returns, with
    scalar values; requests whose body does not parse, for which
    [request.get_json()] itself raises, are not among these. *)
Record Request : Type := mkRequest {
  headers : gmap string string;     (* request.headers *)
  args : gmap string string;        (* request.args *)
  get_json : gmap string value      (* request.get_json(), a JSON object *)
}.

(** What [jsonify] is applied to in the handlers: one mapping or a list of
    mappings. *)
Inductive Body : Type :=
| JObject (o : gmap string value)
| JArray (l : list (gmap string value)).

Record Response : Type := mkResponse {
  body : Body;
  status : Z;
  response_headers : gmap string string
}.

(** Modelled from the spec: the application's error handlers
    ([service/common/error_handlers.py] is not among the sources).  The
    spec's taxonomy: validation errors surface as 400, [abort(code)] as
    [code] (404 not found, 415 media type), everything that is not caught
    as a server error 500. *)
Definition error_status (e : exn) : Z :=
  match e with
  | HTTPException code => code
  | DataValidationError _ => HTTP_400_BAD_REQUEST
  | AttributeError _ | StorageError _ => HTTP_500_INTERNAL_SERVER_ERROR
  end.

(** The status code the client sees for a handler's outcome. *)
Definition status_code (r : exn + Response) : Z :=
  match r with
  | inl e => error_status e
  | inr resp => status resp
  end.

(** ** The storage engine *)

(** Modelled from the spec: what decides whether a row's [available]
    column matches the value handed to [find_by_availability].  The spec
    fixes it for a boolean ("all instances whose available field equals the
    given boolean"); what the storage layer makes of any other value, such
    as the query string the listing handler passes, it leaves open, and so
    does this development. *)
Class StorageEngine : Type := {
  available_is : bool -> value -> bool;
  available_is_bool :
    forall x b : bool, available_is x (VBool b) = Bool.eqb x b
}.

(** ** The category enumeration *)

(** [service.models.Category] is a Python [Enum] whose declaration is not
    among the sources; the development is parametric in it: the members in
    definition order and the name of each. *)
Class Enum (C : Type) : Type := {
  enum_eq_dec :: EqDecision C;
  enum_name : C -> string;
  enum_members : list C
}.

(** What Python guarantees of an [Enum] class: [list(C)] holds every member
    and no two members share a name. *)
Class EnumLaws (C : Type) `{Enum C} : Prop := {
  enum_members_complete : forall c : C, c ∈ enum_members;
  enum_name_inj : forall c1 c2 : C, enum_name c1 = enum_name c2 -> c1 = c2
}.

(** [getattr(C, attr)]: the member called [attr], or [AttributeError]. *)
Definition getattr_enum {C : Type} `{Enum C} (attr : string) : exn + C :=
  match List.find (fun c => String.eqb (enum_name c) attr) enum_members with
  | Some c => inr c
  | None => inl (AttributeError attr)
  end.

Section Service.

Context {Category : Type} `{Enum Category} `{StrUpper} `{StorageEngine}.

(** ** The entity model *)

(** Modelled from the spec: the [Product] entity of [service/models.py],
    which is not among the sources.  "id: integer, assigned by storage on
    creation" and [None] until then; "name: string, required";
    "description: string, optional"; "price: decimal/numeric value";
    "available: boolean"; "category: one value from a fixed, closed set". *)
Record Product : Type := mkProduct {
  id : option Z;
  name : string;
  description : option string;
  price : Decimal;
  available : bool;
  category : Category
}.

(** The assignment [p.id = i]. *)
Definition set_id (p : Product) (i : option Z) : Product :=
  mkProduct i (name p) (description p) (price p) (available p) (category p).

(** Modelled from the spec: [Product.serialize] ([service/models.py] is not
    among the sources).  "Produces a mapping with keys id, name,
    description, price, available, category where category is rendered as
    its enumeration name (string), price as a string/decimal-preserving
    representation, and available as a boolean." *)
Definition serialize (p : Product) : gmap string value :=
  <["id" := match id p with Some i => VInt i | None => VNone end]>
  (<["name" := VStr (name p)]>
  (<["description" := match description p with Some s => VStr s | None => VNone end]>
  (<["price" := VStr (dec_to_string (price p))]>
  (<["available" := VBool (available p)]>
  (<["category" := VStr (enum_name (category p))]> ∅))))).

(** [raise DataValidationError(msg)]. *)
Definition invalid {A : Type} (msg : string) : exn + A :=
  inl (DataValidationError msg).

(** Modelled from the spec: the name field of [Product.deserialize];
    "required (non-empty) - absence or emptiness is a validation failure". *)
Definition deserialize_name (data : gmap string value) : exn + string :=
  match data !! "name" with
  | Some (VStr s) => if String.eqb s "" then invalid "empty name" else inr s
  | Some _ => invalid "bad type for name"
  | None => invalid "missing name"
  end.

(** Modelled from the spec: the description field of
    [Product.deserialize]; "string, optional". *)
Definition deserialize_description (data : gmap string value)
  : exn + option string :=
  match data !! "description" with
  | Some (VStr s) => inr (Some s)
  | Some VNone | None => inr None
  | Some _ => invalid "bad type for description"
  end.

(** Modelled from the spec: the price field of [Product.deserialize];
    "decimal/numeric value, required", a validation error when
    "malformed".  It is read from a decimal string or a JSON integer. *)
Definition deserialize_price (data : gmap string value) : exn + Decimal :=
  match data !! "price" with
  | Some (VStr s) =>
      match dec_of_string s with
      | Some d => inr d
      | None => invalid "malformed price"
      end
  | Some (VInt n) => inr (mkDecimal (n <? 0)%Z (Z.abs_N n) 0)
  | Some _ => invalid "malformed price"
  | None => invalid "missing price"
  end.

(** Modelled from the spec: the available field of [Product.deserialize];
    "boolean, required; any non-boolean value in input is a deserialization
    failure". *)
Definition deserialize_available (data : gmap string value) : exn + bool :=
  match data !! "available" with
  | Some (VBool b) => inr b
  | Some _ => invalid "bad type for boolean available"
  | None => invalid "missing available"
  end.

(** Modelled from the spec: the category field of [Product.deserialize];
    a validation error when it "does not match any enumeration member". *)
Definition deserialize_category (data : gmap string value)
  : exn + Category :=
  match data !! "category" with
  | Some (VStr s) =>
      match getattr_enum s with
      | inr c => inr c
      | inl _ => invalid "invalid category"
      end
  | Some _ => invalid "invalid category"
  | None => invalid "missing category"
  end.

(** Modelled from the spec: [Product.deserialize], applied to an instance
    whose id is [self_id].  "Populates fields from an input mapping.  Fails
    with a validation error when: name is missing; available is present but
    not a boolean type; category is present but does not match any
    enumeration member; required numeric fields are malformed."  Name is
    "required (non-empty)", description "optional"; a missing price,
    available or category is treated like a missing name.  All fields are
    validated before any is assigned, and the id is not read from the
    mapping. *)
Definition deserialize (self_id : option Z) (data : gmap string value)
  : exn + Product :=
  match deserialize_name data, deserialize_description data,
        deserialize_price data, deserialize_available data,
        deserialize_category data with
  | inr n, inr d, inr p, inr a, inr c => inr (mkProduct self_id n d p a c)
  | inl e, _, _, _, _
  | _, inl e, _, _, _
  | _, _, inl e, _, _
  | _, _, _, inl e, _
  | _, _, _, _, inl e => inl e
  end.

(** ** Storage and the repository operations *)

(** Modelled from the spec: the persisted state, "one table/collection of
    Product rows", here in insertion order, and the id the storage engine
    hands out next ("auto-increment ids"). *)
Record Store : Type := mkStore {
  table : list Product;
  next_id : Z
}.

(** Computations that read and write the store and may raise. *)
Definition M (A : Type) : Type := Store -> (exn + A) * Store.

#[global] Instance M_ret : MRet M := fun A a st => (inr a, st).

#[global] Instance M_bind : MBind M := fun A B k m st =>
  match m st with
  | (inr a, st') => k a st'
  | (inl e, st') => (inl e, st')
  end.

(** [raise e]: the store stays as it is at that point. *)
Definition raise {A : Type} (e : exn) : M A := fun st => (inl e, st).

(** [flask.abort(code)]. *)
Definition abort {A : Type} (code : Z) : M A := raise (HTTPException code).

(** A call that does not touch the store and may raise. *)
Definition lift {A : Type} (r : exn + A) : M A := fun st => (r, st).

(** A read of the store. *)
Definition query {A : Type} (f : Store -> A) : M A := fun st => (inr (f st), st).

(** Modelled from the spec: [Product.all], "returns every persisted
    instance". *)
Definition all (st : Store) : list Product := table st.

(** Modelled from the spec: [Product.find], "returns the persisted instance
    matching id, or a not-found sentinel (no exception)". *)
Definition find (product_id : Z) (st : Store) : option Product :=
  List.find (fun p => bool_decide (id p = Some product_id)) (table st).

(** Modelled from the spec: [Product.find_by_name], "all persisted
    instances with exact (case-sensitive) match on name.  Produces a
    sequence, possibly empty." *)
Definition find_by_name (n : string) (st : Store) : list Product :=
  List.filter (fun p => String.eqb (name p) n) (table st).

(** Modelled from the spec: [Product.find_by_category], "all instances
    whose category equals the given enumeration value". *)
Definition find_by_category (c : Category) (st : Store) : list Product :=
  List.filter (fun p => bool_decide (category p = c)) (table st).

(** Modelled from the spec: [Product.find_by_availability], "all instances
    whose available field equals the given boolean", as "a simple equality
    filter over the full table".  The argument is whatever Python value the
    caller hands in; the storage engine decides which rows match it. *)
Definition find_by_availability (v : value) (st : Store) : list Product :=
  List.filter (fun p => available_is (available p) v) (table st).

(** Modelled from the spec: [Product.create], "inserts the current
    transient instance; assigns the generated id back onto the instance". *)
Definition create (p : Product) : M Product := fun st =>
  let p' := set_id p (Some (next_id st)) in
  (inr p', mkStore (table st ++ [p']) (next_id st + 1)).

(** Modelled from the spec: [Product.update], "requires id to be set; fails
    with a validation error (not a storage error) if id is absent/null -
    this must be checked before issuing any storage write.  Persists
    current in-memory field values to the matching row." *)
Definition update (p : Product) : M unit :=
  match id p with
  | None => raise (DataValidationError "Update called with empty ID field")
  | Some i => fun st =>
      (inr tt,
       mkStore (List.map (fun row => if bool_decide (id row = Some i)
                                     then p else row) (table st))
               (next_id st))
  end.

(** Modelled from the spec: [Product.delete], "removes the row matching the
    instance's id". *)
Definition delete (p : Product) : M unit := fun st =>
  (inr tt,
   mkStore (List.filter (fun row => negb (bool_decide (id row = id p)))
                        (table st))
           (next_id st)).

(** ** The request handlers ([service/routes.py]) *)

(** [if x:] for the result [x] of [request.args.get]: [None] and the empty
    string are falsy; in the branch taken [x] is a non-empty string. *)
Definition if_truthy (x : option string) : option string :=
  match x with
  | Some s => if String.eqb s "" then None else Some s
  | None => None
  end.

Definition healthcheck : M Response :=
  mret (mkResponse (JObject (<["status" := VInt 200]> {["message" := VStr "OK"]}))
                   HTTP_200_OK ∅).

Definition check_content_type (request : Request) (content_type : string)
  : M unit :=
  match headers request !! "Content-Type" with
  | None => abort HTTP_415_UNSUPPORTED_MEDIA_TYPE
  | Some ct =>
      if String.eqb ct content_type then mret tt
      else abort HTTP_415_UNSUPPORTED_MEDIA_TYPE
  end.

Definition create_products (request : Request) : M Response :=
  check_content_type request "application/json";;
  let data := get_json request in
  product ← lift (deserialize None data);
  product ← create product;
  let message := serialize product in
  let location_url := "/" in
  mret (mkResponse (JObject message) HTTP_201_CREATED
                   {["Location" := location_url]}).

(** The [if]/[elif] chain of [list_all_product] that computes [prods]. *)
Definition select_products (request : Request) : M (list Product) :=
  let name := args request !! "name" in
  let category := args request !! "category" in
  let availability := args request !! "availability" in
  match if_truthy name with
  | Some name => query (find_by_name name)
  | None =>
      match if_truthy category with
      | Some category =>
          category_value ← lift (getattr_enum (upper category));
          query (find_by_category category_value)
      | None =>
          match if_truthy availability with
          | Some availability =>
              query (find_by_availability (VStr availability))
          | None => query all
          end
      end
  end.

Definition list_all_product (request : Request) : M Response :=
  prods ← select_products request;
  match prods with
  | [] => abort 404
  | _ =>
      let the_products := List.map serialize prods in
      mret (mkResponse (JArray the_products) HTTP_200_OK ∅)
  end.

Definition update_product (request : Request) (product_id : Z)
  : M Response :=
  check_content_type request "application/json";;
  prod ← query (find product_id);
  match prod with
  | None => abort 404
  | Some prod =>
      let req := get_json request in
      prod ← lift (deserialize (id prod) req);
      let prod := set_id prod (Some product_id) in
      update prod;;
      let the_product := serialize prod in
      mret (mkResponse (JObject the_product) HTTP_200_OK ∅)
  end.

Definition get_product (product_id : Z) : M Response :=
  prod ← query (find product_id);
  match prod with
  | None => abort 404
  | Some prod =>
      let the_product := serialize prod in
      mret (mkResponse (JObject the_product) HTTP_200_OK ∅)
  end.

Definition delete_product (product_id : Z) : M Response :=
  prod ← query (find product_id);
  match prod with
  | None => abort 404
  | Some prod =>
      delete prod;;
      mret (mkResponse
              (JObject {["message" :=
                 VStr "The product with name {prod.name} successfully deleted"]})
              HTTP_200_OK ∅)
  end.

End Service.

(** A result that, when it is an exception, is the validation error. *)
Definition raises_validation {A : Type} (r : exn + A) : Prop :=
  forall e, r = inl e -> exists msg, e = DataValidationError msg.

(** ** The filter policy of the listing endpoint, as the specification words it *)

Inductive Filter : Type :=
| ByName (v : string)
| ByCategory (v : string)
| ByAvailability (v : string).

(** A filter is present when the query string gives it a non-empty value. *)
Definition present (request : Request) (key : string) (mk : string -> Filter)
  : list Filter :=
  match args request !! key with
  | Some v => if decide (v = "") then [] else [mk v]
  | None => []
  end.

(** The filters present in a request, in the priority order name,
    category, availability. *)
Definition present_filters (request : Request) : list Filter :=
  present request "name" ByName ++
  present request "category" ByCategory ++
  present request "availability" ByAvailability.

(** The lookup that answers one filter, or the full listing when there is
    none. *)
Definition lookup_for {Category : Type} `{Enum Category} `{StrUpper}
  `{StorageEngine} (f : option Filter) : M (list (@Product Category)) :=
  match f with
  | Some (ByName v) => query (find_by_name v)
  | Some (ByCategory v) =>
      match getattr_enum (upper v) with
      | inr c => query (find_by_category c)
      | inl e => raise e
      end
  | Some (ByAvailability v) => query (find_by_availability (VStr v))
  | None => query all
  end.

(** ** A concrete instance, to run the handlers on *)

(** A three-member enumeration; [CLOTHS] is the category of the
    specification's end-to-end example. *)
Inductive SampleCategory : Type := UNKNOWN | CLOTHS | FOOD.

#[global] Instance SampleCategory_eq_dec : EqDecision SampleCategory.
Proof. solve_decision. Defined.

#[global] Instance SampleCategory_enum : Enum SampleCategory := {|
  enum_name c :=
    match c with
    | UNKNOWN => "UNKNOWN"
    | CLOTHS => "CLOTHS"
    | FOOD => "FOOD"
    end;
  enum_members := [UNKNOWN; CLOTHS; FOOD]
|}.

(** [str.upper] for the sample requests, all of which are ASCII. *)
#[global] Instance ascii_str_upper : StrUpper := ascii_upper.

(** A storage engine that reads the texts [true]/[True] and [false]/[False]
    as the booleans they denote and matches no row on any other
    non-boolean value. *)
Definition text_available_is (x : bool) (v : value) : bool :=
  match v with
  | VBool b => Bool.eqb x b
  | VStr s =>
      if String.eqb s "true" || String.eqb s "True" then x
      else if String.eqb s "false" || String.eqb s "False" then negb x
      else false
  | _ => false
  end.

#[global] Instance text_engine : StorageEngine := {|
  available_is := text_available_is;
  available_is_bool := fun x b => eq_refl
|}.

(** The specification's example product, unavailable, stored under id 1. *)
Definition fedora : Product :=
  mkProduct (Some 1) "Fedora" (Some "A red hat") (mkDecimal false 1250 2)
            false CLOTHS.

Definition apple : Product :=
  mkProduct (Some 2) "Apple" None (mkDecimal false 5 1) true FOOD.

Definition shop : Store := mkStore [fedora; apple] 3.

Definition json_headers : gmap string string :=
  {["Content-Type" := "application/json"]}.

Definition get_request (query_string : list (string * string)) : Request :=
  mkRequest ∅ (list_to_map query_string) ∅.

Definition json_request (data : gmap string value) : Request :=
  mkRequest json_headers ∅ data.

(** The stored fedora under a new name. *)
Definition trilby : Product :=
  mkProduct (Some 1) "Trilby" (Some "A red hat") (mkDecimal false 1250 2)
            false CLOTHS.

Definition rename_to_trilby : Request :=
  json_request (<["id" := VInt 7]> (<["name" := VStr "Trilby"]> (serialize fedora))).

(** The serialized fedora without its name, as the body of a POST. *)
Definition nameless : Request :=
  json_request (base.delete "name" (serialize fedora)).

(** Requests for the listing endpoint. *)
Definition by_name_and_availability : Request :=
  get_request [("name", "Fedora"); ("availability", "true")].

Definition by_name_and_bad_category : Request :=
  get_request [("name", "Fedora"); ("category", "bogus")].

Definition by_empty_category : Request := get_request [("category", "")].

Definition listing (prods : list (@Product SampleCategory)) : Response :=
  mkResponse (JArray (List.map serialize prods)) HTTP_200_OK ∅.

(** A POST whose content type carries a charset parameter. *)
Definition charset_request : Request :=
  mkRequest {["Content-Type" := "application/json; charset=utf-8"]} ∅
            (serialize fedora).

(** The shop after the fedora has been posted once more. *)
Definition shop_with_copy : Store :=
  mkStore [fedora; apple; set_id fedora (Some 3)] 4.

(** ** Well-formed stores *)

(** What the storage engine maintains of the table: every row has an id,
    no two rows share one, and every id in use is below the next one handed
    out. *)
Definition wf_store {Category : Type} (st : @Store Category) : Prop :=
  List.NoDup (List.map id (table st)) /\
  List.Forall (fun p => exists k, id p = Some k /\ k < next_id st) (table st).

(** The stored products other than the one under [product_id]. *)
Definition others {Category : Type} (product_id : Z) (st : @Store Category)
  : list (@Product Category) :=
  List.filter (fun row => negb (bool_decide (id row = Some product_id)))
              (table st).

(** The empty store. *)
Definition empty_store {Category : Type} : @Store Category := mkStore [] 1.

(** * Properties *)

(** ** Decimals and their strings *)

Example dec_to_string_ex :
  dec_to_string (mkDecimal false 1250 2) = "12.50" /\
  dec_to_string (mkDecimal true 5 2) = "-0.05" /\
  dec_to_string (mkDecimal false 7 0) = "7".
Proof. repeat split; reflexivity. Qed.

Example dec_of_string_ex :
  dec_of_string "12.50" = Some (mkDecimal false 1250 2) /\
  dec_of_string "-0.05" = Some (mkDecimal true 5 2) /\
  dec_of_string "12." = None /\ dec_of_string "abc" = None.
Proof. repeat split; reflexivity. Qed.

Lemma split_dot_digits (u : Decimal.uint) :
  split_dot (NilEmpty.string_of_uint u) = (NilEmpty.string_of_uint u, None).
Proof. induction u; cbn; rewrite ?IHu; reflexivity. Qed.

Lemma append_String (c : ascii) (s t : string) :
  String c s ++ t = String c (s ++ t).
Proof. reflexivity. Qed.

Lemma split_dot_digits_dot (u : Decimal.uint) (t : string) :
  split_dot (NilEmpty.string_of_uint u ++ String "." t) =
  (NilEmpty.string_of_uint u, Some t).
Proof.
  induction u; cbn [NilEmpty.string_of_uint]; [reflexivity|..];
    rewrite append_String; cbn; rewrite IHu; reflexivity.
Qed.

Lemma dec_digits_enough (d : Decimal) :
  (dec_scale d < Decimal.nb_digits (dec_digits d))%nat.
Proof. unfold dec_digits. rewrite nb_digits_iter_D0. lia. Qed.

Lemma dec_digits_value (d : Decimal) : N.of_uint (dec_digits d) = dec_coef d.
Proof.
  unfold dec_digits.
  rewrite <- DecimalN.Unsigned.of_uint_norm, unorm_iter_D0.
  rewrite DecimalN.Unsigned.of_uint_norm. apply DecimalN.Unsigned.of_to.
Qed.

Lemma nb_digits_app (a b : Decimal.uint) :
  Decimal.nb_digits (Decimal.app a b) =
  (Decimal.nb_digits a + Decimal.nb_digits b)%nat.
Proof. rewrite !nb_digits_spec, app_spec. apply List.length_app. Qed.

(** Cutting the digits at the decimal point: both parts are non-empty when
    the scale is positive, and together they are the digits. *)
Lemma dec_digits_cut (d : Decimal) :
  let u := dec_digits d in
  let a := Decimal.del_tail (dec_scale d) u in
  let b := Decimal.del_head (Decimal.nb_digits u - dec_scale d) u in
  Decimal.app a b = u /\ Decimal.nb_digits b = dec_scale d /\ a <> Decimal.Nil.
Proof.
  intros u a b. pose proof (dec_digits_enough d) as Hlen. fold u in Hlen.
  assert (Hle : (dec_scale d <= Decimal.nb_digits u)%nat) by lia.
  pose proof (app_del_tail_head _ _ Hle) as Happ.
  pose proof (nb_digits_del_head_sub _ _ Hle) as Hb.
  fold a b in Happ. fold b in Hb. split; [done|]. split; [done|].
  intros Ha. pose proof (nb_digits_app a b) as Hn.
  rewrite Happ, Hb, Ha in Hn. cbn in Hn. lia.
Qed.

Lemma dec_of_unsigned_whole (neg : bool) (a : Decimal.uint) :
  a <> Decimal.Nil ->
  dec_of_unsigned neg (NilEmpty.string_of_uint a) =
  Some (mkDecimal neg (N.of_uint a) 0).
Proof.
  intros Ha. unfold dec_of_unsigned.
  rewrite split_dot_digits, NilEmpty.usu. by destruct a.
Qed.

Lemma dec_of_unsigned_parts (neg : bool) (a b : Decimal.uint) :
  a <> Decimal.Nil -> b <> Decimal.Nil ->
  dec_of_unsigned neg
    (NilEmpty.string_of_uint a ++ "." ++ NilEmpty.string_of_uint b) =
  Some (mkDecimal neg (N.of_uint (Decimal.app a b)) (Decimal.nb_digits b)).
Proof.
  intros Ha Hb. unfold dec_of_unsigned.
  change ("." ++ ?t) with (String "." t).
  rewrite split_dot_digits_dot, !NilEmpty.usu. by destruct a, b.
Qed.

Lemma dec_of_unsigned_string (neg : bool) (d : Decimal) :
  dec_of_unsigned neg (dec_unsigned_string d) =
  Some (mkDecimal neg (dec_coef d) (dec_scale d)).
Proof.
  destruct (dec_digits_cut d) as (Happ & Hb & Ha).
  pose proof (dec_digits_enough d) as Hlen.
  unfold dec_unsigned_string.
  destruct (dec_scale d) as [|k] eqn:Hscale.
  - rewrite dec_of_unsigned_whole, dec_digits_value; [done|].
    intros Hnil. rewrite Hnil in Hlen. cbn in Hlen. lia.
  - rewrite dec_of_unsigned_parts, Happ, Hb, dec_digits_value; [done..|].
    intros Hnil. by rewrite Hnil in Hb.
Qed.

Lemma dec_of_string_digits (a : Decimal.uint) (t : string) :
  a <> Decimal.Nil ->
  dec_of_string (NilEmpty.string_of_uint a ++ t) =
  dec_of_unsigned false (NilEmpty.string_of_uint a ++ t).
Proof.
  intros Ha. destruct a; [done|..];
    cbn [NilEmpty.string_of_uint]; rewrite append_String; reflexivity.
Qed.

Lemma dec_of_string_unsigned (d : Decimal) :
  dec_of_string (dec_unsigned_string d) =
  dec_of_unsigned false (dec_unsigned_string d).
Proof.
  destruct (dec_digits_cut d) as (_ & _ & Ha).
  pose proof (dec_digits_enough d) as Hlen.
  unfold dec_unsigned_string. destruct (dec_scale d) as [|k].
  - destruct (dec_digits d); [cbn in Hlen; lia|reflexivity..].
  - by apply dec_of_string_digits.
Qed.

(** The string of a decimal reads back as the same decimal. *)
Lemma dec_of_to_string (d : Decimal) : dec_of_string (dec_to_string d) = Some d.
Proof.
  unfold dec_to_string. destruct d as [[|] c k]; cbn [dec_neg].
  - change ("-" ++ ?s) with (String "-" s). cbn [dec_of_string].
    apply (dec_of_unsigned_string true (mkDecimal true c k)).
  - change ("" ++ ?s) with s. rewrite dec_of_string_unsigned.
    apply (dec_of_unsigned_string false (mkDecimal false c k)).
Qed.

Lemma dec_num_eq_refl (d : Decimal) : dec_num_eq d d.
Proof. reflexivity. Qed.

Section Properties.

Context {Category : Type} `{Enum Category} `{StrUpper} `{StorageEngine}.

Implicit Types (request : Request) (st : @Store Category).
Implicit Types (p q : @Product Category) (prods : list (@Product Category)).

(** ** Running the monad *)

Lemma run_bind {A B : Type} (m : M A) (k : A -> M B) st :
  (m ≫= k) st =
  match m st with
  | (inr a, st') => k a st'
  | (inl e, st') => (inl e, st')
  end.
Proof. reflexivity. Qed.

Lemma run_ret {A : Type} (a : A) st : (mret a : M A) st = (inr a, st).
Proof. reflexivity. Qed.

Lemma run_query {A : Type} (f : Store -> A) st : query f st = (inr (f st), st).
Proof. reflexivity. Qed.

Lemma run_lift {A : Type} (r : exn + A) st : lift r st = (r, st).
Proof. reflexivity. Qed.

Lemma run_abort {A : Type} code st :
  (abort code : M A) st = (inl (HTTPException code), st).
Proof. reflexivity. Qed.

Create Rewrite HintDb run.

Hint Rewrite @run_bind @run_ret @run_query @run_lift @run_abort : run.

Ltac run := autorewrite with run; cbn beta iota.

(** ** Truthiness of query parameters *)

Lemma if_truthy_Some (x : option string) (s : string) :
  if_truthy x = Some s <-> x = Some s /\ s <> "".
Proof.
  unfold if_truthy. destruct x as [t|]; [|intuition congruence].
  destruct (String.eqb_spec t ""); intuition congruence.
Qed.

Lemma if_truthy_None (x : option string) :
  if_truthy x = None <-> x = None \/ x = Some "".
Proof.
  unfold if_truthy. destruct x as [t|]; [|intuition congruence].
  destruct (String.eqb_spec t ""); intuition congruence.
Qed.

Lemma present_if_truthy request key mk :
  present request key mk =
  match if_truthy (args request !! key) with
  | Some v => [mk v]
  | None => []
  end.
Proof.
  unfold present, if_truthy. destruct (args request !! key) as [v|]; [|done].
  destruct (String.eqb_spec v ""); case_decide; congruence.
Qed.

(** ** The enumeration lookup *)

Lemma getattr_enum_inr (attr : string) (c : Category) :
  getattr_enum attr = inr c -> c ∈ enum_members /\ enum_name c = attr.
Proof.
  unfold getattr_enum. destruct (List.find _ _) as [c'|] eqn:Hfind; [|done].
  intros [= <-]. apply find_some in Hfind as [Hin Heq].
  split; [by apply list_elem_of_In | by apply String.eqb_eq].
Qed.

Lemma getattr_enum_inl (attr : string) (e : exn) :
  getattr_enum (C := Category) attr = inl e ->
  e = AttributeError attr /\
  forall c : Category, c ∈ enum_members -> enum_name c <> attr.
Proof.
  unfold getattr_enum. destruct (List.find _ _) as [c'|] eqn:Hfind; [done|].
  intros [= <-]. split; [done|]. intros c Hin Heq.
  apply list_elem_of_In in Hin.
  apply (find_none _ _ Hfind) in Hin. apply String.eqb_neq in Hin. done.
Qed.

Lemma getattr_enum_member (attr : string) (c : Category) :
  c ∈ enum_members -> enum_name c = attr ->
  exists c', getattr_enum attr = inr c' /\ enum_name c' = attr.
Proof.
  intros Hin Heq. destruct (getattr_enum attr) as [e|c'] eqn:Hget.
  - apply getattr_enum_inl in Hget as [_ Hno]. by destruct (Hno c Hin).
  - exists c'. split; [done|]. by apply getattr_enum_inr in Hget as [_ ?].
Qed.

(** ** Listing products *)

Lemma select_products_lookup_for request st :
  select_products request st = lookup_for (head (present_filters request)) st.
Proof.
  unfold select_products, present_filters.
  rewrite !present_if_truthy.
  destruct (if_truthy (args request !! "name")) as [n|]; [done|].
  destruct (if_truthy (args request !! "category")) as [c|]; cbn.
  - run. by destruct (getattr_enum (upper c)).
  - by destruct (if_truthy (args request !! "availability")).
Qed.

Lemma select_products_store request st r st' :
  select_products request st = (r, st') -> st' = st.
Proof.
  rewrite select_products_lookup_for.
  destruct (head (present_filters request)) as [[v|v|v]|]; cbn;
    try (intros [= _ <-]; done).
  destruct (getattr_enum (upper v)); by intros [= _ <-].
Qed.

Lemma list_all_product_run request st :
  list_all_product request st =
  match select_products request st with
  | (inr [], st') => (inl (HTTPException 404), st')
  | (inr prods, st') =>
      (inr (mkResponse (JArray (List.map serialize prods)) HTTP_200_OK ∅), st')
  | (inl e, st') => (inl e, st')
  end.
Proof.
  unfold list_all_product. run.
  destruct (select_products request st) as [[e|[|p prods]] st']; reflexivity.
Qed.

(** C1.  GET /products, whichever lookup the request selects (all, by name,
    by category, by availability): when the products it yields are none, the
    handler aborts with 404, and it never answers 200 with an empty list;
    otherwise it answers 200 with the array of the serialized products. *)
Theorem list_all_product_404_when_empty request st prods st' :
  select_products request st = (inr prods, st') ->
  (prods = [] ->
     list_all_product request st = (inl (HTTPException 404), st') /\
     status_code (list_all_product request st).1 = HTTP_404_NOT_FOUND) /\
  (prods <> [] ->
     list_all_product request st =
       (inr (mkResponse (JArray (List.map serialize prods)) HTTP_200_OK ∅), st') /\
     status_code (list_all_product request st).1 = HTTP_200_OK) /\
  (forall resp, (list_all_product request st).1 = inr resp ->
     body resp <> JArray []).
Proof.
  intros Hsel. rewrite list_all_product_run, Hsel.
  split; [|split].
  - intros ->. done.
  - intros Hne. destruct prods as [|p prods]; done.
  - intros resp. destruct prods as [|p prods]; cbn; [done|].
    intros [= <-]. done.
Qed.

(** The storage engine reads the value [v] as the boolean [b]. *)
Lemma find_by_availability_denoted (v : value) (b : bool) st :
  (forall x : bool, available_is x v = Bool.eqb x b) ->
  find_by_availability v st =
  List.filter (fun p => Bool.eqb (available p) b) (table st) /\
  forall p, p ∈ find_by_availability v st <-> p ∈ all st /\ available p = b.
Proof.
  intros Hv.
  assert (Heq : find_by_availability v st =
                List.filter (fun p => Bool.eqb (available p) b) (table st)).
  { unfold find_by_availability. apply List.filter_ext. intros p. apply Hv. }
  split; [done|]. intros p. rewrite Heq. unfold all.
  by rewrite !list_elem_of_In, filter_In, Bool.eqb_true_iff.
Qed.


Lemma list_by_category_run request st c :
  if_truthy (args request !! "name") = None ->
  args request !! "category" = Some c ->
  c <> "" ->
  list_all_product request st =
  match getattr_enum (upper c) with
  | inr v =>
      match find_by_category v st with
      | [] => (inl (HTTPException 404), st)
      | prods =>
          (inr (mkResponse (JArray (List.map serialize prods)) HTTP_200_OK ∅), st)
      end
  | inl e => (inl e, st)
  end.
Proof.
  intros Hname Hcat Hc.
  rewrite list_all_product_run. unfold select_products. rewrite Hname.
  assert (if_truthy (args request !! "category") = Some c) as ->
    by by apply if_truthy_Some.
  run. destruct (getattr_enum (upper c)) as [e|v]; [done|].
  run. by destruct (find_by_category v st).
Qed.

(** C7 (as amended).  GET /products with no name filter in effect and a
    non-empty category parameter: the parameter is uppercased and looked up
    among the member names, so that two values with the same uppercase form
    are answered alike; when a member bears the uppercased name the listing
    is that of [find_by_category] for such a member, and when none does the
    handler raises [AttributeError], which nothing turns into an HTTP
    error. *)
Theorem list_by_category_uppercased request st c :
  if_truthy (args request !! "name") = None ->
  args request !! "category" = Some c ->
  c <> "" ->
  (forall v : Category, v ∈ enum_members -> enum_name v = upper c ->
     exists v' : Category, enum_name v' = upper c /\
       list_all_product request st =
       match find_by_category v' st with
       | [] => (inl (HTTPException 404), st)
       | prods =>
           (inr (mkResponse (JArray (List.map serialize prods)) HTTP_200_OK ∅), st)
       end) /\
  ((forall v : Category, v ∈ enum_members -> enum_name v <> upper c) ->
     list_all_product request st = (inl (AttributeError (upper c)), st) /\
     status_code (list_all_product request st).1 = HTTP_500_INTERNAL_SERVER_ERROR) /\
  (forall request' c',
     if_truthy (args request' !! "name") = None ->
     args request' !! "category" = Some c' ->
     c' <> "" ->
     upper c' = upper c ->
     list_all_product request' st = list_all_product request st).
Proof.
  intros Hname Hcat Hc.
  rewrite (list_by_category_run request st c Hname Hcat Hc).
  split; [|split].
  - intros v Hin Hv.
    destruct (getattr_enum_member _ _ Hin Hv) as (v' & -> & Hv').
    by exists v'.
  - intros Hno. destruct (getattr_enum (upper c)) as [e|v] eqn:Hget.
    + apply getattr_enum_inl in Hget as [-> _]. done.
    + apply getattr_enum_inr in Hget as [Hin Hv]. by destruct (Hno v Hin).
  - intros request' c' Hname' Hcat' Hc' Hupper.
    rewrite (list_by_category_run request' st c' Hname' Hcat' Hc').
    by rewrite Hupper.
Qed.

(** C10.  GET /products applies the first of the filters present in the
    request, in the order name, category, availability, a filter being
    present when its parameter has a non-empty value; with no filter present
    it lists all products. *)
Theorem list_all_product_filter_priority request st :
  list_all_product request st =
  match lookup_for (head (present_filters request)) st with
  | (inr [], st') => (inl (HTTPException 404), st')
  | (inr prods, st') =>
      (inr (mkResponse (JArray (List.map serialize prods)) HTTP_200_OK ∅), st')
  | (inl e, st') => (inl e, st')
  end.
Proof.
  rewrite list_all_product_run.
  by rewrite select_products_lookup_for.
Qed.

(** ** Content type, deserialization and the repository *)

Lemma check_content_type_ok request content_type st :
  headers request !! "Content-Type" = Some content_type ->
  check_content_type request content_type st = (inr tt, st).
Proof.
  intros Hct. unfold check_content_type. rewrite Hct.
  by rewrite String.eqb_refl.
Qed.

Ltac validation_cases :=
  intros e; unfold invalid; repeat case_match; intros; simplify_eq; eauto.

Lemma deserialize_name_raises (data : gmap string value) :
  raises_validation (deserialize_name data).
Proof. unfold deserialize_name. validation_cases. Qed.

Lemma deserialize_description_raises (data : gmap string value) :
  raises_validation (deserialize_description data).
Proof. unfold deserialize_description. validation_cases. Qed.

Lemma deserialize_price_raises (data : gmap string value) :
  raises_validation (deserialize_price data).
Proof. unfold deserialize_price. validation_cases. Qed.

Lemma deserialize_available_raises (data : gmap string value) :
  raises_validation (deserialize_available data).
Proof. unfold deserialize_available. validation_cases. Qed.

Lemma deserialize_category_raises (data : gmap string value) :
  raises_validation (deserialize_category (Category := Category) data).
Proof. unfold deserialize_category. validation_cases. Qed.

Lemma deserialize_raises (i : option Z) (data : gmap string value) e :
  deserialize i data = inl e -> exists msg, e = DataValidationError msg.
Proof.
  unfold deserialize.
  pose proof (deserialize_name_raises data) as Hn.
  pose proof (deserialize_description_raises data) as Hd.
  pose proof (deserialize_price_raises data) as Hp.
  pose proof (deserialize_available_raises data) as Ha.
  pose proof (deserialize_category_raises data) as Hc.
  destruct (deserialize_name data), (deserialize_description data),
    (deserialize_price data), (deserialize_available data),
    (deserialize_category data); intros [= <-]; eauto.
Qed.

Lemma deserialize_missing_name (i : option Z) (data : gmap string value) :
  data !! "name" = None ->
  deserialize i data = inl (DataValidationError "missing name").
Proof.
  intros Hn. unfold deserialize, deserialize_name. rewrite Hn. reflexivity.
Qed.

Lemma find_Some product_id st p :
  find product_id st = Some p -> p ∈ table st /\ id p = Some product_id.
Proof.
  unfold find. intros Hf. apply find_some in Hf as [Hin Hid].
  split; [by apply list_elem_of_In | by apply bool_decide_eq_true in Hid].
Qed.

Lemma find_after_delete product_id st p :
  id p = Some product_id -> find product_id (delete p st).2 = None.
Proof.
  intros Hid. unfold find, delete; cbn.
  destruct (List.find _ _) as [row|] eqn:Hf; [|done].
  apply find_some in Hf as [Hin Hrow].
  apply filter_In in Hin as [_ Hkeep].
  apply bool_decide_eq_true in Hrow.
  rewrite Hid, Hrow in Hkeep. by rewrite bool_decide_eq_true_2 in Hkeep.
Qed.

Lemma find_after_update product_id st p q :
  find product_id st = Some p -> id q = Some product_id ->
  update q st = (inr tt, (update q st).2) /\
  find product_id (update q st).2 = Some q.
Proof.
  unfold find, update. intros Hf Hq. rewrite Hq; cbn. split; [done|].
  induction (table st) as [|row rows IH]; [done|].
  cbn in *. destruct (bool_decide (id row = Some product_id)) eqn:Hrow; cbn.
  - by rewrite Hq, bool_decide_eq_true_2.
  - rewrite Hrow. by apply IH.
Qed.

(** On a boolean, [find_by_availability] yields the rows with that
    availability. *)
Lemma find_by_availability_bool (b : bool) st p :
  p ∈ find_by_availability (VBool b) st <-> p ∈ all st /\ available p = b.
Proof.
  unfold find_by_availability, all. rewrite !list_elem_of_In, filter_In.
  by rewrite available_is_bool, Bool.eqb_true_iff.
Qed.

(** ** Creating, updating and deleting products *)

(** C3 (as amended).  PUT /products/<id> with content type
    application/json: no product with the path id gives 404; otherwise the
    body is deserialized onto the instance found; a body that fails
    validation raises the validation error (status 400) and the store is
    left as it was; a body that passes has its id set to the path id and is
    written by [update], and the answer is 200 with the serialized product,
    whose id is the path id and which [find] now returns. *)
Theorem update_product_put request product_id st :
  headers request !! "Content-Type" = Some "application/json" ->
  (find product_id st = None ->
     update_product request product_id st = (inl (HTTPException 404), st)) /\
  (forall p e, find product_id st = Some p ->
     deserialize (id p) (get_json request) = inl e ->
     update_product request product_id st = (inl e, st) /\
     status_code (update_product request product_id st).1 = HTTP_400_BAD_REQUEST) /\
  (forall p q, find product_id st = Some p ->
     deserialize (id p) (get_json request) = inr q ->
     let q' := set_id q (Some product_id) in
     update_product request product_id st =
       (inr (mkResponse (JObject (serialize q')) HTTP_200_OK ∅), (update q' st).2) /\
     serialize q' !! "id" = Some (VInt product_id) /\
     find product_id (update_product request product_id st).2 = Some q').
Proof.
  intros Hct.
  assert (Hrun : update_product request product_id st =
    match find product_id st with
    | None => (inl (HTTPException 404), st)
    | Some p =>
        match deserialize (id p) (get_json request) with
        | inl e => (inl e, st)
        | inr q =>
            match update (set_id q (Some product_id)) st with
            | (inr _, st') =>
                (inr (mkResponse (JObject (serialize (set_id q (Some product_id))))
                                 HTTP_200_OK ∅), st')
            | (inl e, st') => (inl e, st')
            end
        end
    end).
  { unfold update_product. run. rewrite (check_content_type_ok _ _ _ Hct).
    run. destruct (find product_id st) as [p|]; [|done].
    run. destruct (deserialize (id p) (get_json request)) as [e|q]; [done|].
    run. by destruct (update _ st) as [[?|?] ?]. }
  rewrite Hrun. split; [|split].
  - by intros ->.
  - intros p e -> He. rewrite He. split; [done|].
    by destruct (deserialize_raises _ _ _ He) as [msg ->].
  - intros p q Hfind Hq q'. rewrite Hfind, Hq.
    destruct (find_after_update product_id st p q' Hfind eq_refl) as [Hup Hfound].
    fold q'. rewrite Hup. cbn. split; [done|]. split; [done|]. exact Hfound.
Qed.

(** C4.  POST /products with content type application/json and a body that
    fails deserialization: the validation error leaves the handler, the
    client sees status 400 and the store is left as it was. *)
Theorem create_products_invalid_body request st e :
  headers request !! "Content-Type" = Some "application/json" ->
  deserialize None (get_json request) = inl e ->
  (exists msg,
     create_products request st = (inl (DataValidationError msg), st)) /\
  status_code (create_products request st).1 = HTTP_400_BAD_REQUEST /\
  (create_products request st).2 = st.
Proof.
  intros Hct Hd.
  assert (Hrun : create_products request st = (inl e, st)).
  { unfold create_products. run. rewrite (check_content_type_ok _ _ _ Hct).
    run. by rewrite Hd. }
  destruct (deserialize_raises _ _ _ Hd) as [msg ->].
  rewrite Hrun. eauto.
Qed.

(** C5.  [update] on an instance whose id is [None] raises the validation
    error, which is not the storage error, and leaves the store as it
    was. *)
Theorem update_without_id p st :
  id p = None ->
  (exists msg, update p st = (inl (DataValidationError msg), st)) /\
  (forall msg, (update p st).1 <> inl (StorageError msg)) /\
  (update p st).2 = st.
Proof.
  intros Hid. unfold update. rewrite Hid. cbn.
  split; [eauto|]. split; [|done]. intros msg. discriminate.
Qed.

(** C8.  DELETE /products/<id>: no product with that id gives 404 and
    leaves the store as it was; otherwise the product found is deleted, the
    answer is 200 with a message, and [find] no longer returns a product
    for the id. *)
Theorem delete_product_then_find product_id st :
  (find product_id st = None ->
     delete_product product_id st = (inl (HTTPException 404), st) /\
     status_code (delete_product product_id st).1 = HTTP_404_NOT_FOUND) /\
  (forall p, find product_id st = Some p ->
     delete_product product_id st =
       (inr (mkResponse
               (JObject {["message" :=
                  VStr "The product with name {prod.name} successfully deleted"]})
               HTTP_200_OK ∅),
        (delete p st).2) /\
     find product_id (delete_product product_id st).2 = None).
Proof.
  unfold delete_product. run. split.
  - intros ->. done.
  - intros p Hfind. rewrite Hfind. run. cbn.
    split; [done|].
    apply find_Some in Hfind as [_ Hid].
    exact (find_after_delete product_id st p Hid).
Qed.

(** C9.  Whenever POST /products answers, the status is 201 and the
    Location header is ["/"], whatever the request and the store. *)
Theorem create_products_location request st resp st' :
  create_products request st = (inr resp, st') ->
  status resp = HTTP_201_CREATED /\
  response_headers resp !! "Location" = Some "/".
Proof.
  unfold create_products. run.
  destruct (check_content_type request "application/json" st) as [[e|[]] st1];
    [done|].
  run. destruct (deserialize None (get_json request)) as [e|q]; [done|].
  run. cbn. intros [= <- _]. done.
Qed.

(** ** Serialization *)

Lemma serialize_lookup p :
  serialize p !! "id" =
    Some (match id p with Some i => VInt i | None => VNone end) /\
  serialize p !! "name" = Some (VStr (name p)) /\
  serialize p !! "description" =
    Some (match description p with Some s => VStr s | None => VNone end) /\
  serialize p !! "price" = Some (VStr (dec_to_string (price p))) /\
  serialize p !! "available" = Some (VBool (available p)) /\
  serialize p !! "category" = Some (VStr (enum_name (category p))).
Proof. unfold serialize. repeat split; by simplify_map_eq. Qed.

Lemma serialize_dom p :
  dom (serialize p) =
  ({["id"; "name"; "description"; "price"; "available"; "category"]}
     : gset string).
Proof.
  unfold serialize. rewrite !dom_insert_L, dom_empty_L. set_solver.
Qed.

Lemma getattr_enum_name `{!EnumLaws Category} (c : Category) :
  getattr_enum (enum_name c) = inr c.
Proof.
  destruct (getattr_enum_member (enum_name c) c) as (c' & Hget & Hname);
    [apply enum_members_complete | done |].
  by rewrite Hget, (enum_name_inj _ _ Hname).
Qed.

(** C6.  For a product with a non-empty name, deserializing its
    serialization succeeds and gives back its name, description,
    availability and category, and a price that is numerically equal; the
    serialization has exactly the keys id, name, description, price,
    available and category, with the category as the name of the member
    and the availability as a boolean. *)
Theorem serialize_deserialize_roundtrip `{!EnumLaws Category}
  p (self_id : option Z) :
  name p <> "" ->
  (exists q, deserialize self_id (serialize p) = inr q /\
     name q = name p /\ description q = description p /\
     dec_num_eq (price q) (price p) /\
     available q = available p /\ category q = category p) /\
  dom (serialize p) =
    ({["id"; "name"; "description"; "price"; "available"; "category"]}
       : gset string) /\
  serialize p !! "category" = Some (VStr (enum_name (category p))) /\
  serialize p !! "available" = Some (VBool (available p)).
Proof.
  intros Hname.
  destruct (serialize_lookup p) as (_ & Hn & Hd & Hp & Ha & Hc).
  split; [|by auto using serialize_dom].
  exists (mkProduct self_id (name p) (description p) (price p)
                    (available p) (category p)).
  split; [|by auto using dec_num_eq_refl].
  unfold deserialize, deserialize_name, deserialize_description,
    deserialize_price, deserialize_available, deserialize_category.
  rewrite Hn, Hd, Hp, Ha, Hc, dec_of_to_string, getattr_enum_name.
  apply String.eqb_neq in Hname. rewrite Hname.
  by destruct (description p).
Qed.

End Properties.

(** * Further properties of the handlers *)

Section Handlers.

Context {Category : Type} `{Enum Category} `{StrUpper} `{StorageEngine}.

Implicit Types (request : Request) (st : @Store Category).
Implicit Types (p q row : @Product Category) (rows : list (@Product Category)).

Create Rewrite HintDb handlers.

Hint Rewrite @run_bind @run_ret @run_query @run_lift @run_abort : handlers.

Ltac step := autorewrite with handlers; cbn beta iota.

(** ** The handlers, run *)

Lemma check_content_type_run request content_type st :
  check_content_type request content_type st =
  (if decide (headers request !! "Content-Type" = Some content_type)
   then inr tt else inl (HTTPException HTTP_415_UNSUPPORTED_MEDIA_TYPE), st).
Proof.
  unfold check_content_type.
  destruct (headers request !! "Content-Type") as [ct|] eqn:Hct.
  - destruct (String.eqb_spec ct content_type) as [->|Hne].
    + by rewrite decide_True.
    + rewrite decide_False; [done|]. congruence.
  - by rewrite decide_False.
Qed.

Lemma create_products_run request st :
  create_products request st =
  if decide (headers request !! "Content-Type" = Some "application/json")
  then
    match deserialize None (get_json request) with
    | inl e => (inl e, st)
    | inr p =>
        (inr (mkResponse (JObject (serialize (set_id p (Some (next_id st)))))
                         HTTP_201_CREATED {["Location" := "/"]}),
         mkStore (table st ++ [set_id p (Some (next_id st))]) (next_id st + 1))
    end
  else (inl (HTTPException HTTP_415_UNSUPPORTED_MEDIA_TYPE), st).
Proof.
  unfold create_products. step. rewrite check_content_type_run.
  case_decide; [|done]. step.
  by destruct (deserialize None (get_json request)).
Qed.

Lemma update_product_run request product_id st :
  update_product request product_id st =
  if decide (headers request !! "Content-Type" = Some "application/json")
  then
    match find product_id st with
    | None => (inl (HTTPException 404), st)
    | Some p =>
        match deserialize (id p) (get_json request) with
        | inl e => (inl e, st)
        | inr q =>
            (inr (mkResponse (JObject (serialize (set_id q (Some product_id))))
                             HTTP_200_OK ∅),
             (update (set_id q (Some product_id)) st).2)
        end
    end
  else (inl (HTTPException HTTP_415_UNSUPPORTED_MEDIA_TYPE), st).
Proof.
  unfold update_product. step. rewrite check_content_type_run.
  case_decide; [|done]. step.
  destruct (find product_id st) as [p|]; [|done]. step.
  by destruct (deserialize (id p) (get_json request)).
Qed.

Lemma get_product_run product_id st :
  get_product product_id st =
  match find product_id st with
  | None => (inl (HTTPException 404), st)
  | Some p => (inr (mkResponse (JObject (serialize p)) HTTP_200_OK ∅), st)
  end.
Proof. unfold get_product. step. by destruct (find product_id st). Qed.

Lemma delete_product_run product_id st :
  delete_product product_id st =
  match find product_id st with
  | None => (inl (HTTPException 404), st)
  | Some p =>
      (inr (mkResponse
              (JObject {["message" :=
                 VStr "The product with name {prod.name} successfully deleted"]})
              HTTP_200_OK ∅),
       mkStore (others product_id st) (next_id st))
  end.
Proof.
  unfold delete_product. step.
  destruct (find product_id st) as [p|] eqn:Hfind; [|done]. step.
  apply find_Some in Hfind as [_ Hid]. unfold delete, others. by rewrite Hid.
Qed.

(** ** Rows of the table *)

Lemma find_others product_id k st :
  k <> product_id ->
  List.find (fun p => bool_decide (id p = Some k)) (others product_id st) =
  find k st.
Proof.
  intros Hk. unfold others, find.
  induction (table st) as [|row rows IH]; [done|]. cbn.
  destruct (bool_decide (id row = Some product_id)) eqn:Hrow; cbn.
  - apply bool_decide_eq_true in Hrow.
    rewrite bool_decide_eq_false_2; [done|]. rewrite Hrow. congruence.
  - by rewrite IH.
Qed.

Lemma find_others_same product_id st :
  List.find (fun p => bool_decide (id p = Some product_id))
            (others product_id st) = None.
Proof.
  unfold others. induction (table st) as [|row rows IH]; [done|]. cbn.
  destruct (bool_decide (id row = Some product_id)) eqn:Hrow; cbn; [done|].
  by rewrite Hrow.
Qed.

Lemma find_None_others product_id st :
  find product_id st = None -> others product_id st = table st.
Proof.
  unfold find, others. induction (table st) as [|row rows IH]; [done|]. cbn.
  destruct (bool_decide (id row = Some product_id)); [done|]. cbn.
  intros Hf. by rewrite IH.
Qed.

(** The table after [update q] for an instance [q] with id [i]. *)
Lemma update_run q i st :
  id q = Some i ->
  update q st =
  (inr tt,
   mkStore (List.map (fun row => if bool_decide (id row = Some i)
                                 then q else row) (table st))
           (next_id st)).
Proof. intros Hq. unfold update. by rewrite Hq. Qed.

Lemma update_ids q i rows :
  id q = Some i ->
  List.map id (List.map (fun row => if bool_decide (id row = Some i)
                                    then q else row) rows) =
  List.map id rows.
Proof.
  intros Hq. induction rows as [|row rows IH]; [done|]. cbn. rewrite IH.
  destruct (bool_decide (id row = Some i)) eqn:Hrow; [|done].
  apply bool_decide_eq_true in Hrow. by rewrite Hq, Hrow.
Qed.

Lemma update_twice q i rows :
  id q = Some i ->
  let f := fun row => if bool_decide (id row = Some i) then q else row in
  List.map f (List.map f rows) = List.map f rows.
Proof.
  intros Hq f. induction rows as [|row rows IH]; [done|]. cbn. rewrite IH.
  f_equal. unfold f.
  destruct (bool_decide (id row = Some i)) eqn:Hrow.
  - by rewrite Hq, bool_decide_eq_true_2.
  - by rewrite Hrow.
Qed.

Lemma update_others q i st :
  id q = Some i -> others i (update q st).2 = others i st.
Proof.
  intros Hq. rewrite (update_run q i st Hq). unfold others. cbn.
  induction (table st) as [|row rows IH]; [done|]. cbn.
  destruct (bool_decide (id row = Some i)) eqn:Hrow; cbn.
  - by rewrite Hq, bool_decide_eq_true_2.
  - by rewrite Hrow, IH.
Qed.

Lemma find_update_other q i k st :
  id q = Some i -> k <> i -> find k (update q st).2 = find k st.
Proof.
  intros Hq Hk. rewrite (update_run q i st Hq). unfold find. cbn.
  induction (table st) as [|row rows IH]; [done|]. cbn.
  destruct (bool_decide (id row = Some i)) eqn:Hrow.
  - apply bool_decide_eq_true in Hrow.
    rewrite !bool_decide_eq_false_2, IH; [done|rewrite Hrow|rewrite Hq];
      congruence.
  - by rewrite IH.
Qed.

(** ** The content type gate *)

(** X1.  POST /products and PUT /products/<id> check the content type
    before anything else: unless the Content-Type header is exactly
    application/json, both abort with 415 and leave the store as it was,
    whatever the body and whether or not the product exists. *)
Theorem content_type_checked_first request st :
  headers request !! "Content-Type" <> Some "application/json" ->
  create_products request st =
    (inl (HTTPException HTTP_415_UNSUPPORTED_MEDIA_TYPE), st) /\
  forall product_id,
    update_product request product_id st =
      (inl (HTTPException HTTP_415_UNSUPPORTED_MEDIA_TYPE), st).
Proof.
  intros Hct. split; [|intros product_id].
  - rewrite create_products_run. by rewrite decide_False.
  - rewrite update_product_run. by rewrite decide_False.
Qed.

(** ** POST /products *)

(** X2.  A POST that raises leaves the store as it was; a POST that
    answers appends one row to the table, the product of its body under the
    id that was next, advances the next id by one, and touches no other
    row. *)
Theorem create_products_frame request st :
  (forall e, (create_products request st).1 = inl e ->
     (create_products request st).2 = st) /\
  (forall resp, (create_products request st).1 = inr resp ->
     exists p, id p = Some (next_id st) /\
       body resp = JObject (serialize p) /\
       (create_products request st).2 =
         mkStore (table st ++ [p]) (next_id st + 1)).
Proof.
  rewrite create_products_run. case_decide; [|done].
  destruct (deserialize None (get_json request)) as [e'|q]; [done|].
  split; [done|]. cbn [fst snd]. intros resp [= <-].
  by exists (set_id q (Some (next_id st))).
Qed.

Lemma deserialize_serialize `{!EnumLaws Category} p (self_id : option Z) :
  name p <> "" -> deserialize self_id (serialize p) = inr (set_id p self_id).
Proof.
  intros Hname.
  destruct (serialize_lookup p) as (_ & Hn & Hd & Hp & Ha & Hc).
  unfold set_id, deserialize, deserialize_name, deserialize_description,
    deserialize_price, deserialize_available, deserialize_category.
  rewrite Hn, Hd, Hp, Ha, Hc, dec_of_to_string, getattr_enum_name.
  apply String.eqb_neq in Hname. rewrite Hname.
  by destruct (description p).
Qed.

(** X3.  Posting the serialization of a product with a non-empty name as
    JSON always succeeds: the answer is 201 with the serialization of that
    same product under the id the store hands out (the id in the body is
    not used), and the table gains this one row at its end. *)
Theorem create_products_of_serialize `{!EnumLaws Category} request st p :
  headers request !! "Content-Type" = Some "application/json" ->
  get_json request = serialize p ->
  name p <> "" ->
  create_products request st =
    (inr (mkResponse (JObject (serialize (set_id p (Some (next_id st)))))
                     HTTP_201_CREATED {["Location" := "/"]}),
     mkStore (table st ++ [set_id p (Some (next_id st))]) (next_id st + 1)).
Proof.
  intros Hct Hbody Hname.
  rewrite create_products_run, decide_True, Hbody by done.
  by rewrite (deserialize_serialize p None Hname).
Qed.

(** ** PUT /products/<id> *)

(** X4.  A PUT that raises leaves the store as it was.  A PUT that
    answers keeps the next id and the ids of the rows, in their order (no
    row is added or removed), and leaves every product under another id as
    it was. *)
Theorem update_product_frame request product_id st :
  (forall e, (update_product request product_id st).1 = inl e ->
     (update_product request product_id st).2 = st) /\
  (forall resp, (update_product request product_id st).1 = inr resp ->
     let st' := (update_product request product_id st).2 in
     next_id st' = next_id st /\
     List.map id (table st') = List.map id (table st) /\
     others product_id st' = others product_id st /\
     forall k, k <> product_id -> find k st' = find k st).
Proof.
  rewrite update_product_run. case_decide; [|done].
  destruct (find product_id st) as [p|]; [|done].
  destruct (deserialize (id p) (get_json request)) as [e'|q]; [done|].
  split; [done|]. cbn [fst snd]. intros resp _.
  set (q' := set_id q (Some product_id)).
  assert (Hq' : id q' = Some product_id) by done.
  split; [by rewrite (update_run q' product_id st Hq')|].
  split; [rewrite (update_run q' product_id st Hq'); cbn;
          by apply update_ids|].
  split; [exact (update_others q' product_id st Hq')|].
  intros k Hk. exact (find_update_other q' product_id k st Hq' Hk).
Qed.

(** X5.  PUT is idempotent: a PUT that answered, sent again, gives the same
    answer and leaves the store it had produced as it is. *)
Theorem update_product_idempotent request product_id st resp st' :
  update_product request product_id st = (inr resp, st') ->
  update_product request product_id st' = (inr resp, st').
Proof.
  rewrite !update_product_run. case_decide; [|done].
  destruct (find product_id st) as [p|] eqn:Hfind; [|done].
  destruct (deserialize (id p) (get_json request)) as [e|q] eqn:Hd; [done|].
  set (q' := set_id q (Some product_id)).
  assert (Hq' : id q' = Some product_id) by done.
  intros [= <- <-].
  destruct (find_after_update product_id st p q' Hfind Hq') as [_ Hfound].
  rewrite (update_run q' product_id st Hq') in Hfound. cbn [snd] in Hfound.
  rewrite Hfound, Hq'.
  apply find_Some in Hfind as [_ Hp]. rewrite Hp in Hd. rewrite Hd.
  fold q'. f_equal.
  rewrite (update_run q' product_id _ Hq').
  cbn. f_equal. by apply update_twice.
Qed.

(** X6.  A PUT that answered is read back by GET /products/<id>: the GET
    answers 200 with the same body and changes nothing. *)
Theorem update_product_then_get request product_id st resp st' :
  update_product request product_id st = (inr resp, st') ->
  get_product product_id st' = (inr (mkResponse (body resp) HTTP_200_OK ∅), st').
Proof.
  rewrite update_product_run, get_product_run. case_decide; [|done].
  destruct (find product_id st) as [p|] eqn:Hfind; [|done].
  destruct (deserialize (id p) (get_json request)) as [e|q]; [done|].
  destruct (find_after_update product_id st p (set_id q (Some product_id))
              Hfind eq_refl) as [_ Hfound].
  intros [= <- <-]. unfold find in Hfound |- *.
  cbn in Hfound |- *. by rewrite Hfound.
Qed.

(** ** GET /products/<id> *)

(** X7.  GET /products/<id> changes nothing; it aborts with 404 exactly
    when [find] yields no product for the id, and a response it gives has
    status 200 and holds the serialization of a stored product, whose id
    field is the path id. *)
Theorem get_product_reads product_id st :
  (get_product product_id st).2 = st /\
  ((get_product product_id st).1 = inl (HTTPException HTTP_404_NOT_FOUND) <->
   find product_id st = None) /\
  (forall resp, (get_product product_id st).1 = inr resp ->
     status resp = HTTP_200_OK /\
     exists p, p ∈ table st /\ body resp = JObject (serialize p) /\
       serialize p !! "id" = Some (VInt product_id)).
Proof.
  rewrite get_product_run.
  destruct (find product_id st) as [p|] eqn:Hfind; cbn.
  - split; [done|]. split; [done|]. intros resp [= <-]. split; [done|].
    apply find_Some in Hfind as [Hin Hid]. exists p.
    split; [done|]. split; [done|].
    destruct (serialize_lookup p) as (-> & _). by rewrite Hid.
  - done.
Qed.

Lemma find_app_fresh k rows q :
  List.Forall (fun p => id p <> Some k) rows -> id q = Some k ->
  List.find (fun p => bool_decide (id p = Some k)) (rows ++ [q]) = Some q.
Proof.
  intros Hrows Hq. induction Hrows as [|row rows Hrow _ IH]; cbn.
  - by rewrite bool_decide_eq_true_2.
  - by rewrite bool_decide_eq_false_2.
Qed.

Lemma find_app_found k rows rows' p :
  List.find (fun p => bool_decide (id p = Some k)) rows = Some p ->
  List.find (fun p => bool_decide (id p = Some k)) (rows ++ rows') = Some p.
Proof.
  induction rows as [|row rows IH]; [done|]. cbn.
  by destruct (bool_decide (id row = Some k)).
Qed.

Lemma wf_store_fresh st :
  wf_store st -> List.Forall (fun p => id p <> Some (next_id st)) (table st).
Proof.
  intros [_ Hbound]. eapply List.Forall_impl; [|exact Hbound].
  intros p (k & Hk & Hlt) Hp. rewrite Hk in Hp. injection Hp as ->. lia.
Qed.

(** X8.  On a well-formed store, a POST that answered is read back by GET
    /products/<id> under the id it assigned, which is the id field of its
    body: the GET answers 200 with the same body.  Every product that could
    be found before the POST is still found, unchanged. *)
Theorem create_products_then_get request st resp st' :
  wf_store st ->
  create_products request st = (inr resp, st') ->
  (exists p, body resp = JObject (serialize p) /\
     serialize p !! "id" = Some (VInt (next_id st))) /\
  get_product (next_id st) st' =
    (inr (mkResponse (body resp) HTTP_200_OK ∅), st') /\
  (forall k p, find k st = Some p -> find k st' = Some p).
Proof.
  intros Hwf. rewrite create_products_run. case_decide; [|done].
  destruct (deserialize None (get_json request)) as [e|q]; [done|].
  intros [= <- <-]. set (q' := set_id q (Some (next_id st))).
  split; [|split].
  - exists q'. split; [done|]. by destruct (serialize_lookup q') as (-> & _).
  - rewrite get_product_run. unfold find. cbn [table].
    by rewrite (find_app_fresh (next_id st) (table st) q' (wf_store_fresh st Hwf)).
  - intros k p. unfold find. cbn [table]. apply find_app_found.
Qed.

(** ** DELETE /products/<id> *)

(** X9.  After a DELETE that answered, the product is gone for the
    handlers: the same DELETE sent again aborts with 404, and so does GET
    /products/<id>; neither changes the store. *)
Theorem delete_product_twice product_id st resp st' :
  delete_product product_id st = (inr resp, st') ->
  delete_product product_id st' = (inl (HTTPException 404), st') /\
  get_product product_id st' = (inl (HTTPException 404), st').
Proof.
  rewrite !delete_product_run, get_product_run.
  destruct (find product_id st) as [p|]; [|done].
  intros [= _ <-]. unfold find. cbn [table].
  by rewrite find_others_same.
Qed.

(** X10.  A DELETE that does not answer fails with 404 and leaves the store
    as it was.  A DELETE that answers keeps the next id, removes the rows
    under the id and no other row, and leaves every product under another
    id to be found as before. *)
Theorem delete_product_frame product_id st :
  (forall e, (delete_product product_id st).1 = inl e ->
     e = HTTPException HTTP_404_NOT_FOUND /\
     (delete_product product_id st).2 = st) /\
  (forall resp, (delete_product product_id st).1 = inr resp ->
     next_id (delete_product product_id st).2 = next_id st /\
     (forall p, p ∈ table (delete_product product_id st).2 <->
        p ∈ table st /\ id p <> Some product_id) /\
     (forall k, k <> product_id ->
        find k (delete_product product_id st).2 = find k st)).
Proof.
  rewrite delete_product_run.
  destruct (find product_id st) as [p|]; cbn [fst snd].
  - split; [done|]. intros resp _. split; [done|]. split.
    + intros row. cbn [table]. unfold others.
      rewrite !list_elem_of_In, filter_In, negb_true_iff.
      by rewrite bool_decide_eq_false.
    + intros k Hk. unfold find at 1. cbn [table]. by apply find_others.
  - split; [|done]. by intros e [= <-].
Qed.

(** ** GET /products *)

Lemma list_all_product_store request st :
  (list_all_product request st).2 = st.
Proof.
  rewrite list_all_product_run.
  destruct (select_products request st) as [[e|[|p prods]] st'] eqn:Hsel;
    by apply select_products_store in Hsel as ->.
Qed.

Lemma lookup_for_rows (f : option Filter) st prods st' :
  lookup_for f st = (inr prods, st') ->
  List.Forall (fun p => p ∈ table st) prods.
Proof.
  assert (Hfilter : forall g : Product -> bool,
            List.Forall (fun p => p ∈ table st) (List.filter g (table st))).
  { intros g. apply List.Forall_forall. intros p Hp.
    apply filter_In in Hp as [Hp _]. by apply list_elem_of_In. }
  destruct f as [[v|v|v]|]; cbn.
  - intros [= <- _]. apply Hfilter.
  - destruct (getattr_enum (upper v)); [done|]. intros [= <- _]. apply Hfilter.
  - intros [= <- _]. apply Hfilter.
  - intros [= <- _]. apply List.Forall_forall. intros p Hp.
    by apply list_elem_of_In.
Qed.

(** X11.  GET /products changes nothing, whatever it is asked.  When it
    aborts, the code is 404; when it raises [AttributeError], no name
    filter is in effect, the category parameter is non-empty and its
    uppercased value, which the error carries, names no member; when it
    answers, the status is 200 and the body a non-empty array in which
    every entry is the serialization of a stored product. *)
Theorem list_all_product_outcomes request st :
  (list_all_product request st).2 = st /\
  (forall code, (list_all_product request st).1 = inl (HTTPException code) ->
     code = HTTP_404_NOT_FOUND) /\
  (forall attr, (list_all_product request st).1 = inl (AttributeError attr) ->
     if_truthy (args request !! "name") = None /\
     exists c, if_truthy (args request !! "category") = Some c /\
       attr = upper c /\
       forall v : Category, v ∈ enum_members -> enum_name v <> attr) /\
  (forall resp, (list_all_product request st).1 = inr resp ->
     status resp = HTTP_200_OK /\
     exists prods, prods <> [] /\
       List.Forall (fun p => p ∈ table st) prods /\
       body resp = JArray (List.map serialize prods)).
Proof.
  split; [apply list_all_product_store|].
  rewrite list_all_product_run.
  destruct (select_products request st) as [[e|prods] st'] eqn:Hsel.
  - cbn. split; [|split; [|done]].
    + intros code [= ->]. revert Hsel. unfold select_products.
      destruct (if_truthy (args request !! "name")) as [n|]; [done|].
      destruct (if_truthy (args request !! "category")) as [c|].
      * step. destruct (getattr_enum (upper c)) as [e'|v] eqn:Hget; [|done].
        by apply getattr_enum_inl in Hget as [-> _].
      * by destruct (if_truthy (args request !! "availability")).
    + intros attr [= ->]. revert Hsel. unfold select_products.
      destruct (if_truthy (args request !! "name")) as [n|]; [done|].
      destruct (if_truthy (args request !! "category")) as [c|].
      * step. destruct (getattr_enum (upper c)) as [e'|v] eqn:Hget; [|done].
        intros [= He _]. apply getattr_enum_inl in Hget as [He' Hno].
        rewrite He' in He. injection He as <-.
        split; [done|]. by exists c.
      * by destruct (if_truthy (args request !! "availability")).
  - rewrite select_products_lookup_for in Hsel.
    apply lookup_for_rows in Hsel.
    destruct prods as [|p prods]; cbn.
    + split; [by intros code [= <-]|]. done.
    + split; [done|]. split; [done|]. intros resp [= <-].
      split; [done|]. by exists (p :: prods).
Qed.

(** X12.  When the name parameter is a non-empty string, GET /products is
    answered from the products with exactly that name, whatever the
    category and availability parameters are: 404 when there is none,
    otherwise 200 with their serializations; it does not raise. *)
Theorem list_by_name request st n :
  args request !! "name" = Some n ->
  n <> "" ->
  list_all_product request st =
    (match find_by_name n st with
     | [] => inl (HTTPException 404)
     | prods =>
         inr (mkResponse (JArray (List.map serialize prods)) HTTP_200_OK ∅)
     end, st) /\
  (forall p, p ∈ find_by_name n st <-> p ∈ all st /\ name p = n).
Proof.
  intros Hname Hn. split.
  - rewrite list_all_product_run. unfold select_products.
    assert (if_truthy (args request !! "name") = Some n) as ->
      by by apply if_truthy_Some.
    step. by destruct (find_by_name n st).
  - intros p. unfold find_by_name, all.
    by rewrite !list_elem_of_In, filter_In, String.eqb_eq.
Qed.

(** X13.  When no name filter is in effect, the category parameter is
    non-empty and its uppercased value is the name of a member of an
    enumeration whose names are distinct, GET /products is answered from
    the products of exactly that category. *)
Theorem list_by_category_member `{!EnumLaws Category} request st c m :
  if_truthy (args request !! "name") = None ->
  args request !! "category" = Some c ->
  c <> "" ->
  enum_name m = upper c ->
  list_all_product request st =
    (match find_by_category m st with
     | [] => inl (HTTPException 404)
     | prods =>
         inr (mkResponse (JArray (List.map serialize prods)) HTTP_200_OK ∅)
     end, st) /\
  (forall p, p ∈ find_by_category m st <-> p ∈ all st /\ category p = m).
Proof.
  intros Hname Hcat Hc Hm. split.
  - rewrite (list_by_category_run request st c Hname Hcat Hc).
    rewrite <- Hm, getattr_enum_name. by destruct (find_by_category m st).
  - intros p. unfold find_by_category, all.
    by rewrite !list_elem_of_In, filter_In, bool_decide_eq_true.
Qed.

(** ** The store invariant *)

Lemma wf_store_empty : wf_store (empty_store (Category := Category)).
Proof. split; constructor. Qed.

Lemma wf_store_create st q :
  wf_store st ->
  wf_store (mkStore (table st ++ [set_id q (Some (next_id st))])
                    (next_id st + 1)).
Proof.
  intros Hwf. pose proof (wf_store_fresh st Hwf) as Hfresh.
  destruct Hwf as [Hnodup Hbound]. split; cbn [table next_id].
  - rewrite List.map_app.
    apply List.NoDup_app;
      [done|apply List.NoDup_cons; [intros []|apply List.NoDup_nil]|].
    intros i Hin [Hi|[]]. cbn in Hi. subst i.
    apply in_map_iff in Hin as (p & Hp & Hin).
    by apply (proj1 (List.Forall_forall _ _) Hfresh p Hin).
  - apply List.Forall_app. split.
    + eapply List.Forall_impl; [|exact Hbound].
      intros p (k & Hk & Hlt). exists k. split; [done|lia].
    + constructor; [|constructor]. exists (next_id st). split; [done|lia].
Qed.

Lemma wf_store_update st q i :
  id q = Some i -> wf_store st -> wf_store (update q st).2.
Proof.
  intros Hq [Hnodup Hbound]. rewrite (update_run q i st Hq).
  split; cbn [snd table next_id].
  - by rewrite (update_ids q i (table st) Hq).
  - clear Hnodup. revert Hbound.
    induction (table st) as [|row rows IH]; [done|]. cbn.
    intros Hbound. apply List.Forall_cons_iff in Hbound as [Hrow Hrows].
    constructor; [|by apply IH].
    destruct (bool_decide (id row = Some i)) eqn:Hi; [|done].
    apply bool_decide_eq_true in Hi. by rewrite Hq, <- Hi.
Qed.

Lemma wf_store_others st product_id :
  wf_store st -> wf_store (mkStore (others product_id st) (next_id st)).
Proof.
  intros [Hnodup Hbound]. unfold others. split; cbn [table next_id].
  - clear Hbound. revert Hnodup.
    induction (table st) as [|row rows IH]; [done|].
    cbn. intros Hnd. apply List.NoDup_cons_iff in Hnd as [Hnotin Hnd].
    destruct (negb _); [|by apply IH]. cbn. constructor; [|by apply IH].
    intros Hin. apply Hnotin.
    apply in_map_iff in Hin as (p & Hp & Hin).
    apply filter_In in Hin as [Hin _]. apply in_map_iff. eauto.
  - apply List.Forall_forall. intros p Hp. apply filter_In in Hp as [Hp _].
    by apply (proj1 (List.Forall_forall _ _) Hbound).
Qed.

(** X14.  Every handler keeps the store well-formed: after POST, PUT,
    DELETE and the two GETs, whatever their outcome, every row still has an
    id, no two rows share one, and every id is below the next id. *)
Theorem handlers_keep_wf_store request product_id st :
  wf_store st ->
  wf_store (create_products request st).2 /\
  wf_store (update_product request product_id st).2 /\
  wf_store (delete_product product_id st).2 /\
  wf_store (list_all_product request st).2 /\
  wf_store (get_product product_id st).2.
Proof.
  intros Hwf. split; [|split; [|split; [|split]]].
  - rewrite create_products_run. case_decide; [|done].
    destruct (deserialize None (get_json request)) as [e|q]; [done|].
    by apply wf_store_create.
  - rewrite update_product_run. case_decide; [|done].
    destruct (find product_id st) as [p|]; [|done].
    destruct (deserialize (id p) (get_json request)) as [e|q]; [done|].
    by apply (wf_store_update st _ product_id).
  - rewrite delete_product_run.
    destruct (find product_id st) as [p|]; [|done].
    by apply wf_store_others.
  - by rewrite list_all_product_store.
  - rewrite get_product_run. by destruct (find product_id st).
Qed.

End Handlers.

(** * The handlers on the sample shop *)

#[global] Instance SampleCategory_laws : EnumLaws SampleCategory.
Proof.
  split.
  - intros []; set_solver.
  - intros [] []; cbn; congruence.
Qed.

(** ** C1 *)

Lemma list_all_product_404_when_empty_witness :
  (select_products (get_request [("name", "Fedora")]) shop = (inr [fedora], shop) /\
   list_all_product (get_request [("name", "Fedora")]) shop =
     (inr (listing [fedora]), shop)) /\
  (select_products (get_request [("name", "Trilby")]) shop = (inr [], shop) /\
   list_all_product (get_request [("name", "Trilby")]) shop =
     (inl (HTTPException 404), shop)).
Proof.
  split; (split; [reflexivity|]).
  - apply (list_all_product_404_when_empty
             (get_request [("name", "Fedora")]) shop [fedora] shop);
      [reflexivity | discriminate].
  - apply (list_all_product_404_when_empty
             (get_request [("name", "Trilby")]) shop [] shop); reflexivity.
Defined.

(** ** C2 *)



(** ** C3 *)

(** A PUT for the stored product 1 with the empty JSON object as body: the
    handler raises the validation error and nothing is written. *)
Lemma update_product_counterexample :
  headers (json_request ∅) !! "Content-Type" = Some "application/json" /\
  find 1 shop = Some fedora /\
  update_product (json_request ∅) 1 shop =
    (inl (DataValidationError "missing name"), shop) /\
  status_code (update_product (json_request ∅) 1 shop).1 = HTTP_400_BAD_REQUEST.
Proof. repeat split; reflexivity. Qed.

Lemma update_product_put_witness :
  headers rename_to_trilby !! "Content-Type" = Some "application/json" /\
  find 1 shop = Some fedora /\
  deserialize (Some 1) (get_json rename_to_trilby) = inr trilby /\
  update_product rename_to_trilby 1 shop =
    (inr (mkResponse (JObject (serialize trilby)) HTTP_200_OK ∅),
     mkStore [trilby; apple] 3) /\
  serialize trilby !! "id" = Some (VInt 1) /\
  find 1 (update_product rename_to_trilby 1 shop).2 = Some trilby.
Proof.
  split; [reflexivity|]. split; [reflexivity|]. split; [reflexivity|].
  exact (proj2 (proj2 (update_product_put rename_to_trilby 1 shop eq_refl))
           fedora trilby eq_refl eq_refl).
Defined.

(** ** C4 *)

Lemma create_products_invalid_body_witness :
  headers nameless !! "Content-Type" = Some "application/json" /\
  get_json nameless !! "name" = None /\
  deserialize (Category := SampleCategory) None (get_json nameless) =
    inl (DataValidationError "missing name") /\
  status_code (create_products nameless shop).1 = HTTP_400_BAD_REQUEST /\
  (create_products nameless shop).2 = shop.
Proof.
  split; [reflexivity|]. split; [reflexivity|]. split; [reflexivity|].
  apply (create_products_invalid_body nameless shop
           (DataValidationError "missing name")); reflexivity.
Defined.

(** ** C5 *)

Lemma update_without_id_witness :
  id (set_id fedora None) = None /\
  (update (set_id fedora None) shop).2 = shop.
Proof.
  split; [reflexivity|].
  apply (update_without_id (set_id fedora None) shop); reflexivity.
Defined.

(** ** C6 *)

Lemma serialize_deserialize_roundtrip_witness :
  name fedora <> "" /\
  (exists q, deserialize None (serialize fedora) = inr q /\
     name q = "Fedora" /\ description q = Some "A red hat" /\
     dec_num_eq (price q) (mkDecimal false 1250 2) /\
     available q = false /\ category q = CLOTHS) /\
  dom (serialize fedora) =
    ({["id"; "name"; "description"; "price"; "available"; "category"]}
       : gset string) /\
  serialize fedora !! "category" = Some (VStr "CLOTHS") /\
  serialize fedora !! "available" = Some (VBool false).
Proof.
  assert (Hname : name fedora <> "") by discriminate.
  split; [exact Hname|].
  exact (serialize_deserialize_roundtrip fedora None Hname).
Defined.

Example serialize_price_is_string :
  serialize fedora !! "price" = Some (VStr "12.50").
Proof. reflexivity. Qed.

(** ** C7 *)

(** Two requests with a category parameter that matches no member once
    uppercased, neither of which raises: in the first the name filter
    answers, in the second the empty value does not count as a filter. *)
Lemma category_filter_counterexample :
  (args by_name_and_bad_category !! "category" = Some "bogus" /\
   getattr_enum (C := SampleCategory) (upper "bogus") =
     inl (AttributeError "BOGUS") /\
   list_all_product by_name_and_bad_category shop =
     (inr (listing [fedora]), shop)) /\
  (args by_empty_category !! "category" = Some "" /\
   getattr_enum (C := SampleCategory) (upper "") = inl (AttributeError "") /\
   list_all_product by_empty_category shop =
     (inr (listing [fedora; apple]), shop)).
Proof. repeat split; reflexivity. Qed.

Lemma list_by_category_uppercased_witness :
  (if_truthy (args (get_request [("category", "bogus")]) !! "name") = None /\
   args (get_request [("category", "bogus")]) !! "category" = Some "bogus" /\
   "bogus" <> "") /\
  list_all_product (get_request [("category", "bogus")]) shop =
    (inl (AttributeError "BOGUS"), shop).
Proof.
  assert (Hne : "bogus" <> "") by discriminate.
  split; [split; [reflexivity | split; [reflexivity | exact Hne]]|].
  assert (Hno : forall v : SampleCategory,
             v ∈ enum_members -> enum_name v <> upper "bogus")
    by (intros [] _; discriminate).
  exact (proj1 (proj1 (proj2 (list_by_category_uppercased
                         (get_request [("category", "bogus")]) shop "bogus"
                         eq_refl eq_refl Hne)) Hno)).
Defined.

Example list_by_category_any_case :
  list_all_product (get_request [("category", "cLoThs")]) shop =
    (inr (listing [fedora]), shop).
Proof. reflexivity. Qed.

(** ** C8 *)

Lemma delete_product_then_find_witness :
  find 1 shop = Some fedora /\
  find 1 (delete_product 1 shop).2 = None.
Proof.
  split; [reflexivity|].
  exact (proj2 (proj2 (delete_product_then_find 1 shop) fedora eq_refl)).
Defined.

Example delete_product_message :
  (delete_product 2 shop).1 =
  inr (mkResponse
         (JObject {["message" :=
            VStr "The product with name {prod.name} successfully deleted"]})
         HTTP_200_OK ∅).
Proof. reflexivity. Qed.

(** ** C9 *)

Lemma create_products_location_witness :
  exists resp st',
    create_products (json_request (serialize fedora)) shop = (inr resp, st') /\
    status resp = HTTP_201_CREATED /\
    response_headers resp !! "Location" = Some "/".
Proof.
  exists (mkResponse (JObject (serialize (set_id fedora (Some 3))))
                     HTTP_201_CREATED {["Location" := "/"]}),
    (mkStore [fedora; apple; set_id fedora (Some 3)] 4).
  split; [reflexivity|].
  apply (create_products_location (json_request (serialize fedora)) shop _
           (mkStore [fedora; apple; set_id fedora (Some 3)] 4)).
  reflexivity.
Defined.

Example create_products_assigns_id :
  (create_products (json_request (serialize fedora)) shop).2 =
  mkStore [fedora; apple; set_id fedora (Some 3)] 4.
Proof. reflexivity. Qed.

(** ** C10 *)

Example name_wins_over_category :
  present_filters (get_request [("category", "food"); ("name", "Fedora")]) =
    [ByName "Fedora"; ByCategory "food"] /\
  list_all_product (get_request [("category", "food"); ("name", "Fedora")]) shop =
    (inr (listing [fedora]), shop).
Proof. split; reflexivity. Qed.

Example availability_alone :
  list_all_product (get_request [("availability", "false")]) shop =
    (inr (listing [fedora]), shop) /\
  list_all_product (get_request [("availability", "maybe")]) shop =
    (inl (HTTPException 404), shop).
Proof. split; reflexivity. Qed.

(** * More runs on the sample shop *)

Lemma shop_wf : wf_store shop.
Proof.
  split.
  - repeat (apply List.NoDup_cons; [cbn; intuition discriminate|]).
    apply List.NoDup_nil.
  - repeat constructor; eexists; (split; [reflexivity|reflexivity]).
Qed.

Lemma content_type_checked_first_witness :
  headers charset_request !! "Content-Type" <> Some "application/json" /\
  create_products charset_request shop =
    (inl (HTTPException HTTP_415_UNSUPPORTED_MEDIA_TYPE), shop) /\
  update_product charset_request 1 shop =
    (inl (HTTPException HTTP_415_UNSUPPORTED_MEDIA_TYPE), shop).
Proof.
  assert (Hct : headers charset_request !! "Content-Type" <>
                Some "application/json") by discriminate.
  split; [exact Hct|].
  destruct (content_type_checked_first charset_request shop Hct) as [Hpost Hput].
  split; [exact Hpost | exact (Hput 1)].
Defined.

Lemma create_products_of_serialize_witness :
  name fedora <> "" /\
  create_products (json_request (serialize fedora)) shop =
    (inr (mkResponse (JObject (serialize (set_id fedora (Some 3))))
                     HTTP_201_CREATED {["Location" := "/"]}),
     shop_with_copy).
Proof.
  assert (Hname : name fedora <> "") by discriminate.
  split; [exact Hname|].
  exact (create_products_of_serialize (json_request (serialize fedora)) shop
           fedora eq_refl eq_refl Hname).
Defined.

Lemma update_product_idempotent_witness :
  update_product rename_to_trilby 1 shop =
    (inr (mkResponse (JObject (serialize trilby)) HTTP_200_OK ∅),
     mkStore [trilby; apple] 3) /\
  update_product rename_to_trilby 1 (mkStore [trilby; apple] 3) =
    (inr (mkResponse (JObject (serialize trilby)) HTTP_200_OK ∅),
     mkStore [trilby; apple] 3).
Proof.
  split; [reflexivity|].
  exact (update_product_idempotent rename_to_trilby 1 shop _ _ eq_refl).
Defined.

Lemma update_product_then_get_witness :
  update_product rename_to_trilby 1 shop =
    (inr (mkResponse (JObject (serialize trilby)) HTTP_200_OK ∅),
     mkStore [trilby; apple] 3) /\
  get_product 1 (mkStore [trilby; apple] 3) =
    (inr (mkResponse (JObject (serialize trilby)) HTTP_200_OK ∅),
     mkStore [trilby; apple] 3).
Proof.
  split; [reflexivity|].
  exact (update_product_then_get rename_to_trilby 1 shop _ _ eq_refl).
Defined.

Lemma create_products_then_get_witness :
  wf_store shop /\
  create_products (json_request (serialize fedora)) shop =
    (inr (mkResponse (JObject (serialize (set_id fedora (Some 3))))
                     HTTP_201_CREATED {["Location" := "/"]}),
     shop_with_copy) /\
  get_product 3 shop_with_copy =
    (inr (mkResponse (JObject (serialize (set_id fedora (Some 3))))
                     HTTP_200_OK ∅),
     shop_with_copy).
Proof.
  split; [exact shop_wf|]. split; [reflexivity|].
  exact (proj1 (proj2 (create_products_then_get
                         (json_request (serialize fedora)) shop _ _
                         shop_wf eq_refl))).
Defined.

Lemma delete_product_twice_witness :
  (delete_product 1 shop).2 = mkStore [apple] 3 /\
  delete_product 1 (mkStore [apple] 3) =
    (inl (HTTPException 404), mkStore [apple] 3) /\
  get_product 1 (mkStore [apple] 3) =
    (inl (HTTPException 404), mkStore [apple] 3).
Proof.
  split; [reflexivity|].
  exact (delete_product_twice 1 shop _ (mkStore [apple] 3) eq_refl).
Defined.

Lemma list_by_name_witness :
  args by_name_and_bad_category !! "name" = Some "Fedora" /\
  args by_name_and_bad_category !! "category" = Some "bogus" /\
  list_all_product by_name_and_bad_category shop =
    (inr (listing [fedora]), shop).
Proof.
  split; [reflexivity|]. split; [reflexivity|].
  assert (Hn : "Fedora" <> "") by discriminate.
  exact (proj1 (list_by_name by_name_and_bad_category shop "Fedora"
                  eq_refl Hn)).
Defined.

Lemma list_by_category_member_witness :
  enum_name FOOD = upper "food" /\
  list_all_product (get_request [("category", "food")]) shop =
    (inr (listing [apple]), shop).
Proof.
  split; [reflexivity|].
  assert (Hc : "food" <> "") by discriminate.
  exact (proj1 (list_by_category_member
                  (get_request [("category", "food")]) shop "food" FOOD
                  eq_refl eq_refl Hc eq_refl)).
Defined.

Lemma handlers_keep_wf_store_witness :
  wf_store shop /\
  wf_store (create_products (json_request (serialize fedora)) shop).2 /\
  wf_store (update_product (json_request (serialize fedora)) 1 shop).2 /\
  wf_store (delete_product 1 shop).2.
Proof.
  split; [exact shop_wf|].
  destruct (handlers_keep_wf_store (json_request (serialize fedora)) 1 shop
              shop_wf) as (Hpost & Hput & Hdelete & _).
  split; [exact Hpost|]. split; [exact Hput | exact Hdelete].
Defined.
